(** * pyinfra/modules/server.py: the os-level operations, as decision functions

    A shallow embedding of the four operations of the server module
    ([wait], [shell], [script], [user]) and the properties of the plans
    they return.

    The module is Python 2 code: text is byte strings, [str.format] fills
    numbered fields, [hashlib.sha1] digests a byte string, and the name
    [file] is the interpreter's builtin. Each operation is embedded as the
    body of its function: a computation that returns a list of commands or
    raises. What the module takes from elsewhere is a parameter of the
    embedding: the value of [host.users], and the operations
    [files.directory] and [files.put] of the sibling module [files]. *)

From Stdlib Require Import ZArith String Ascii List.
From Stdlib Require Import DecimalString.
From stdpp Require Import base gmap strings list.

(** ** Python values and exceptions *)

Module Py.

(** The exceptions the module can meet. [FactUnavailable] is the failure
    of the fact provider behind [host]; the others are the interpreter's. *)
Inductive exn : Type :=
  | TypeError
  | KeyError
  | ValueError
  | IndexError
  | IOError
  | FactUnavailable.

(** A computation that returns or raises. *)
Inductive result (A : Type) : Type :=
  | Ok (a : A)
  | Raise (e : exn).
Arguments Ok {A} a.
Arguments Raise {A} e.

#[export] Instance result_ret : MRet result := fun _ a => Ok a.
#[export] Instance result_bind : MBind result := fun _ _ f m =>
  match m with
  | Ok a => f a
  | Raise e => Raise e
  end.
#[export] Instance result_fmap : FMap result := fun _ _ f m =>
  match m with
  | Ok a => Ok (f a)
  | Raise e => Raise e
  end.

Definition returns {A} (m : result A) : bool :=
  match m with Ok _ => true | Raise _ => false end.

(** An argument that is [None], an integer or a byte string. *)
Inductive value : Type :=
  | VNone
  | VInt (z : Z)
  | VStr (s : string).

(** [str(v)], which is what a bare [{n}] field of [format] inserts. *)
Definition str (v : value) : string :=
  match v with
  | VNone => "None"
  | VInt z => NilZero.string_of_int (Z.to_int z)
  | VStr s => s
  end.

(** An optional string argument ([home=None], [shell=None]) as a value. *)
Definition of_opt (o : option string) : value :=
  match o with
  | None => VNone
  | Some s => VStr s
  end.

(** The double quote and the line feed, which the templates contain. *)
Definition dq : string := String (ascii_of_nat 34) EmptyString.
Definition nl : string := String (ascii_of_nat 10) EmptyString.

(** *** [str.format] with numbered fields

    The scanner of [str.format], for templates made of literal text, the
    escapes of a doubled brace, and fields [{n}] with a decimal index,
    which is all the module writes. A field the arguments do not cover is
    an [IndexError]; a brace that is left open or a lone closing brace is
    a [ValueError]. Other forms of field (named, automatic, with a
    conversion or a format) are outside the embedding and refused with
    [ValueError] too. *)
Inductive fstate : Type :=
  | Lit               (* in literal text *)
  | Open              (* after an opening brace *)
  | Field (n : nat)   (* inside a field, index read so far *)
  | Close.            (* after a closing brace in literal text *)

Definition digit_of (c : ascii) : option nat :=
  let n := nat_of_ascii c in
  if (48 <=? n)%nat && (n <=? 57)%nat then Some (n - 48)%nat else None.

Fixpoint format_go (st : fstate) (t : string) (args : list value)
  : result string :=
  match t with
  | EmptyString =>
      match st with
      | Lit => Ok EmptyString
      | _ => Raise ValueError
      end
  | String c r =>
      match st with
      | Lit =>
          if Ascii.eqb c "{" then format_go Open r args
          else if Ascii.eqb c "}" then format_go Close r args
          else String c <$> format_go Lit r args
      | Open =>
          if Ascii.eqb c "{" then String c <$> format_go Lit r args
          else match digit_of c with
               | Some d => format_go (Field d) r args
               | None => Raise ValueError
               end
      | Field n =>
          if Ascii.eqb c "}" then
            match nth_error args n with
            | Some v => append (str v) <$> format_go Lit r args
            | None => Raise IndexError
            end
          else match digit_of c with
               | Some d => format_go (Field (10 * n + d)) r args
               | None => Raise ValueError
               end
      | Close =>
          if Ascii.eqb c "}" then String c <$> format_go Lit r args
          else Raise ValueError
      end
  end.

Definition format (template : string) (args : list value) : result string :=
  format_go Lit template args.

(** [d.get(k)], [d[k]] on something that may be [None], and the truth
    value of an optional dict. *)
Definition getitem {V} (d : option (gmap string V)) (k : string) : result V :=
  match d with
  | None => Raise TypeError
  | Some m =>
      match m !! k with
      | Some v => Ok v
      | None => Raise KeyError
      end
  end.

Definition truthy {V} (d : option (gmap string V)) : bool :=
  match d with
  | None => false
  | Some m => negb (Nat.eqb (size m) 0)
  end.

(** [x or {}] *)
Definition or_empty {V} (d : option (gmap string V)) : gmap string V :=
  if truthy d then default ∅ d else ∅.

(** [s != v] for a string [s]: a string differs from [None] and from every
    integer, and from another string unless they are the same bytes. *)
Definition ne (s : string) (v : value) : bool :=
  match v with
  | VStr s' => negb (String.eqb s s')
  | _ => true
  end.

(** [list(t)] builds a fresh list from the items of [t], in order. *)
Fixpoint list_of {A} (t : list A) : list A :=
  match t with
  | [] => []
  | x :: r => x :: list_of r
  end.

End Py.

(** ** SHA-1, as [hashlib.sha1] computes it (FIPS 180-4)

    Words are 32-bit integers in [Z], reduced after every addition and
    rotation. The message is a byte string and the digest is printed as 40
    lower-case hexadecimal digits. *)

Module SHA1.

Local Open Scope Z_scope.

Definition w32 (x : Z) : Z := x mod 2 ^ 32.
Definition add32 (x y : Z) : Z := w32 (x + y).
Definition rotl (n x : Z) : Z :=
  w32 (Z.lor (Z.shiftl x n) (Z.shiftr x (32 - n))).
Definition not32 (x : Z) : Z := Z.lxor x (2 ^ 32 - 1).

Definition bytes_of (s : string) : list Z :=
  map (fun c => Z.of_nat (nat_of_ascii c)) (list_ascii_of_string s).

(** The big-endian bytes of [x], [n] of them. *)
Fixpoint be_bytes (n : nat) (x : Z) : list Z :=
  match n with
  | O => []
  | S k => Z.shiftr x (8 * Z.of_nat k) mod 256 :: be_bytes k x
  end.

(** The message, a one bit, zeros up to 56 modulo 64, and the length in
    bits as 8 bytes. *)
Definition pad (msg : list Z) : list Z :=
  let len := Z.of_nat (length msg) in
  let zeros := Z.to_nat ((55 - len) mod 64) in
  msg ++ [128] ++ repeat 0 zeros ++ be_bytes 8 (8 * len).

Fixpoint words_of (fuel : nat) (bs : list Z) : list Z :=
  match fuel, bs with
  | S k, b0 :: b1 :: b2 :: b3 :: r =>
      (b0 * 2 ^ 24 + b1 * 2 ^ 16 + b2 * 2 ^ 8 + b3) :: words_of k r
  | _, _ => []
  end.

(** The message schedule, latest word first: [w] holds W(t-1) .. W(0). *)
Fixpoint schedule (n : nat) (w : list Z) : list Z :=
  match n with
  | O => w
  | S k =>
      let x := Z.lxor (Z.lxor (nth 2 w 0) (nth 7 w 0))
                      (Z.lxor (nth 13 w 0) (nth 15 w 0)) in
      schedule k (rotl 1 x :: w)
  end.

Record state : Type := State { ha : Z; hb : Z; hc : Z; hd : Z; he : Z }.

Definition init : state :=
  State 1732584193 4023233417 2562383102 271733878 3285377520.

Definition f_k (t : nat) (b c d : Z) : Z * Z :=
  if (t <? 20)%nat then
    (Z.lor (Z.land b c) (Z.land (not32 b) d), 1518500249)
  else if (t <? 40)%nat then
    (Z.lxor (Z.lxor b c) d, 1859775393)
  else if (t <? 60)%nat then
    (Z.lor (Z.lor (Z.land b c) (Z.land b d)) (Z.land c d), 2400959708)
  else
    (Z.lxor (Z.lxor b c) d, 3395469782).

Definition round (t : nat) (wt : Z) (s : state) : state :=
  let '(f, k) := f_k t (hb s) (hc s) (hd s) in
  let tmp := add32 (add32 (add32 (add32 (rotl 5 (ha s)) f) (he s)) k) wt in
  State tmp (ha s) (rotl 30 (hb s)) (hc s) (hd s).

Fixpoint rounds (t : nat) (ws : list Z) (s : state) : state :=
  match ws with
  | [] => s
  | wt :: r => rounds (S t) r (round t wt s)
  end.

Definition compress (h : state) (block : list Z) : state :=
  let ws := rev (schedule 64 (rev (words_of 16 block))) in
  let s := rounds 0 ws h in
  State (add32 (ha h) (ha s)) (add32 (hb h) (hb s)) (add32 (hc h) (hc s))
        (add32 (hd h) (hd s)) (add32 (he h) (he s)).

Fixpoint blocks (fuel : nat) (h : state) (bs : list Z) : state :=
  match fuel, bs with
  | S k, _ :: _ => blocks k (compress h (firstn 64 bs)) (skipn 64 bs)
  | _, _ => h
  end.

Definition digest (msg : string) : state :=
  let bs := pad (bytes_of msg) in
  blocks (length bs) init bs.

Definition hex_digit (x : Z) : ascii :=
  ascii_of_nat (Z.to_nat (if x <? 10 then 48 + x else 87 + x)).

Definition hex_byte (b : Z) : string :=
  String (hex_digit (b / 16)) (String (hex_digit (b mod 16)) EmptyString).

Definition hex_word (w : Z) : string :=
  String.concat EmptyString (map hex_byte (be_bytes 4 w)).

Definition hexdigest (msg : string) : string :=
  let s := digest msg in
  String.concat EmptyString
    (map hex_word [ha s; hb s; hc s; hd s; he s]).

(** A character of a lower-case hexadecimal numeral: 0-9 or a-f. *)
Definition is_hex_digit (c : ascii) : bool :=
  let n := nat_of_ascii c in
  ((48 <=? n)%nat && (n <=? 57)%nat) || ((97 <=? n)%nat && (n <=? 102)%nat).

End SHA1.

(** ** The operations of [pyinfra/modules/server.py] *)

Import Py.

(** The users fact is a dict from user name to a dict with the keys
    [home] and [shell]. *)
Definition user_record (home shell : string) : gmap string string :=
  {[ "home" := home; "shell" := shell ]}.

Definition well_formed_record (u : gmap string string) : bool :=
  bool_decide (is_Some (u !! "home")) && bool_decide (is_Some (u !! "shell")).

(** Python 2's builtin [file(name[, mode[, buffering]])]. The module
    neither imports nor defines a [file] of its own (it imports the module
    [files]), so that is what the name denotes where [user] calls it. The
    keywords are checked before anything is opened: one that is not a
    parameter of the builtin is a [TypeError]. With its own keywords only
    it would open a local file, which the embedding reports as [IOError]. *)
Definition builtin_file (name : string) (kwargs : list (string * string))
  : result (list string) :=
  if forallb (fun kw => bool_decide (kw.1 ∈ ["name"; "mode"; "buffering"]))
       kwargs
  then Raise IOError
  else Raise TypeError.

(** The template of [wait], line by line. *)
Definition wait_template : string := Eval vm_compute in
  String.concat nl
    [ EmptyString;
      "        if [ $(which nc) ]; then";
      "            while ! nc -q 1 localhost {0} < /dev/null; do sleep 5; done";
      "        elif [ $(which timeout) ] && [ $(which bash) ]; then";
      "            while ! timeout 1 bash -c " +:+ dq
        +:+ "echo > /dev/tcp/localhost/{0}" +:+ dq +:+ "; do sleep 5; done";
      "        else";
      "            echo " +:+ dq +:+ "No nc or timeout/bash!" +:+ dq;
      "            exit 1";
      "        fi";
      "    " ].

(** The template of the command that appends one public key. *)
Definition key_template : string := Eval vm_compute in
  "cat {0} | grep " +:+ dq +:+ "{1}" +:+ dq +:+ " || echo " +:+ dq +:+ "{1}"
    +:+ dq +:+ " >> {0}".

Section Operations.

(** What [host.users] evaluates to: the fact provider raises, or gives
    [None] or a dict of user records. *)
Variable host_users : result (option (gmap string (gmap string string))).

(** [files.directory(name, user=, group=, mode=)] and
    [files.put(local, remote)]: operations of the sibling module
    [files], with the host they consult held fixed. *)
Variable files_directory :
  value -> string -> string -> option string -> result (list string).
Variable files_put : string -> string -> result (list string).

Definition wait (port : value) : result (list string) :=
  c ← format wait_template [port];
  Ok [c].

Definition shell (commands : list string) : result (list string) :=
  Ok (list_of commands).

Definition script (filename : string) : result (list string) :=
  let commands := [] in
  let hash_ := SHA1.hexdigest filename in
  temp_file ← format "/tmp/{0}" [VStr hash_];
  put ← files_put filename temp_file;
  let commands := commands ++ put in
  c ← format "chmod +x {0}" [VStr temp_file];
  let commands := commands ++ [c] in
  let commands := commands ++ [temp_file] in
  Ok commands.

(** The loop over [public_keys]: one appended command per key. *)
Fixpoint append_keys (filename : string) (keys : list string)
    (commands : list string) : result (list string) :=
  match keys with
  | [] => Ok commands
  | key :: rest =>
      c ← format key_template [VStr filename; VStr key];
      append_keys filename rest (commands ++ [c])
  end.

Definition user (name : string) (present : bool) (home shell : option string)
    (public_keys : option (list string)) : result (list string) :=
  let commands := [] in
  fact ← host_users;
  let users := or_empty fact in
  let user := users !! name in
  (* User exists but we don't want them? *)
  if negb present && truthy user then
    c ← format "userdel {0}" [VStr name];
    Ok (commands ++ [c])
  else
    commands ←
      (* User doesn't exist but we want them? *)
      (if present && bool_decide (user = None) then
         c ← format "useradd -d {0} -s {1} {2}"
               [of_opt home; of_opt shell; VStr name];
         Ok (commands ++ [c])
       (* User exists and we want them, check home/shell/keys *)
       else
         h ← getitem user "home";
         commands ←
           (if ne h (of_opt home) then
              c ← format "usermod -d {0} {1}" [of_opt home; VStr name];
              Ok (commands ++ [c])
            else Ok commands);
         s ← getitem user "shell";
         if ne s (of_opt shell) then
           c ← format "usermod -s {0} {1}" [of_opt shell; VStr name];
           Ok (commands ++ [c])
         else Ok commands);
    (* Ensure home directory ownership *)
    d ← files_directory (of_opt home) name name None;
    let commands := commands ++ d in
    (* Add SSH keys *)
    match public_keys with
    | None => Ok commands
    | Some keys =>
        ssh ← format "{0}/.ssh" [of_opt home];
        d ← files_directory (VStr ssh) name name (Some "700");
        let commands := commands ++ d in
        filename ← format "{0}/.ssh/authorized_keys" [of_opt home];
        f ← builtin_file filename
              [("user", name); ("group", name); ("mode", "600")];
        let commands := commands ++ f in
        append_keys filename keys commands
    end.

End Operations.

(** ** Hosts used in the examples *)

Module Sample.

(** A host that knows alice, and one that knows bob. *)
Definition users_alice : gmap string (gmap string string) :=
  {[ "alice" := user_record "/home/alice" "/bin/sh" ]}.
Definition users_bob : gmap string (gmap string string) :=
  {[ "bob" := user_record "/home/bob" "/bin/sh" ]}.

(** A host whose directories all are as asked: [files.directory] has
    nothing to do. *)
Definition converged : value -> string -> string -> option string
    -> result (list string) :=
  fun _ _ _ _ => Ok [].

(** A host where every directory needs its owner set. *)
Definition chown_needed : value -> string -> string -> option string
    -> result (list string) :=
  fun path user group _ =>
    Ok ["chown " +:+ user +:+ ":" +:+ group +:+ " " +:+ str path].

(** An upload that is one command naming both paths. *)
Definition put_one (local remote : string) : result (list string) :=
  Ok ["put " +:+ local +:+ " " +:+ remote].

(** A host whose directories cannot be looked at, and an upload whose
    local file cannot be read. *)
Definition no_directories : value -> string -> string -> option string
    -> result (list string) :=
  fun _ _ _ _ => Raise FactUnavailable.

Definition put_unreadable (local remote : string) : result (list string) :=
  Raise IOError.

(** A host that knows alice by her home only. *)
Definition users_no_shell : gmap string (gmap string string) :=
  {[ "alice" := {[ "home" := "/home/alice" ]} ]}.

End Sample.

(** ** SHA-1 on known messages *)

Example sha1_empty :
  SHA1.hexdigest EmptyString = "da39a3ee5e6b4b0d3255bfef95601890afd80709".
Proof. vm_compute. reflexivity. Qed.

Example sha1_abc :
  SHA1.hexdigest "abc" = "a9993e364706816aba3e25717850c26c9cd0d89d".
Proof. vm_compute. reflexivity. Qed.

(** A message of 56 bytes, which pads to two blocks. *)
Example sha1_two_blocks :
  SHA1.hexdigest "abcdbcdecdefdefgefghfghighijhijkijkljklmklmnlmnomnopnopq"
  = "84983e441c3bd26ebaae4aa1f95129e5e54670f1".
Proof. vm_compute. reflexivity. Qed.

Lemma hexdigest_length (msg : string) :
  String.length (SHA1.hexdigest msg) = 40%nat.
Proof.
  unfold SHA1.hexdigest. generalize (SHA1.digest msg). intros s.
  cbv [SHA1.hex_word SHA1.be_bytes map String.concat SHA1.hex_byte append
       String.length].
  reflexivity.
Qed.

(** ** What [format] gives on the module's templates *)

Section Templates.

Lemma append_empty_r (s : string) : s +:+ EmptyString = s.
Proof. induction s as [|c s IH]; [reflexivity | exact (f_equal (String c) IH)]. Qed.

Lemma append_assoc (a b c : string) : (a +:+ b) +:+ c = a +:+ (b +:+ c).
Proof. induction a as [|x a IH]; [reflexivity | exact (f_equal (String x) IH)]. Qed.

(* Run the scanner on the literal template, leaving the arguments alone. *)
Ltac run_format :=
  intros; cbv -[append str of_opt];
  rewrite ?append_empty_r, ?append_assoc; reflexivity.

Lemma format_userdel (name : string) :
  format "userdel {0}" [VStr name] = Ok ("userdel " +:+ name).
Proof. run_format. Qed.

Lemma format_useradd (home shell : value) (name : string) :
  format "useradd -d {0} -s {1} {2}" [home; shell; VStr name]
  = Ok ("useradd -d " +:+ str home +:+ " -s " +:+ str shell +:+ " " +:+ name).
Proof. run_format. Qed.

Lemma format_usermod_d (home : value) (name : string) :
  format "usermod -d {0} {1}" [home; VStr name]
  = Ok ("usermod -d " +:+ str home +:+ " " +:+ name).
Proof. run_format. Qed.

Lemma format_usermod_s (shell : value) (name : string) :
  format "usermod -s {0} {1}" [shell; VStr name]
  = Ok ("usermod -s " +:+ str shell +:+ " " +:+ name).
Proof. run_format. Qed.

Lemma format_ssh_dir (home : value) :
  format "{0}/.ssh" [home] = Ok (str home +:+ "/.ssh").
Proof. run_format. Qed.

Lemma format_authorized_keys (home : value) :
  format "{0}/.ssh/authorized_keys" [home]
  = Ok (str home +:+ "/.ssh/authorized_keys").
Proof. run_format. Qed.

Lemma format_key (filename key : string) :
  format key_template [VStr filename; VStr key]
  = Ok ("cat " +:+ filename +:+ " | grep " +:+ dq +:+ key +:+ dq
        +:+ " || echo " +:+ dq +:+ key +:+ dq +:+ " >> " +:+ filename).
Proof. run_format. Qed.

Lemma format_tmp (digest : string) :
  format "/tmp/{0}" [VStr digest] = Ok ("/tmp/" +:+ digest).
Proof. run_format. Qed.

Lemma format_chmod (path : string) :
  format "chmod +x {0}" [VStr path] = Ok ("chmod +x " +:+ path).
Proof. run_format. Qed.

Lemma format_wait (port : value) :
  format wait_template [port]
  = Ok (String.concat nl
          [ EmptyString;
            "        if [ $(which nc) ]; then";
            "            while ! nc -q 1 localhost " +:+ str port
              +:+ " < /dev/null; do sleep 5; done";
            "        elif [ $(which timeout) ] && [ $(which bash) ]; then";
            "            while ! timeout 1 bash -c " +:+ dq
              +:+ "echo > /dev/tcp/localhost/" +:+ str port +:+ dq
              +:+ "; do sleep 5; done";
            "        else";
            "            echo " +:+ dq +:+ "No nc or timeout/bash!" +:+ dq;
            "            exit 1";
            "        fi";
            "    " ]).
Proof. run_format. Qed.

End Templates.

(** ** Reading the users fact *)

Section Facts.

Context {V : Type}.
Implicit Types (m : gmap string V) (k : string).

Lemma or_empty_some m : or_empty (Some m) = m.
Proof.
  unfold or_empty, truthy. destruct (Nat.eqb_spec (size m) 0) as [E|E]; simpl.
  - symmetry. now apply map_size_empty_inv.
  - reflexivity.
Qed.

Lemma or_empty_none : or_empty (None : option (gmap string V)) = ∅.
Proof. reflexivity. Qed.

Lemma truthy_lookup m k v : m !! k = Some v -> truthy (Some m) = true.
Proof.
  intros H. unfold truthy.
  destruct (Nat.eqb_spec (size m) 0) as [E|E]; [|reflexivity].
  apply map_size_empty_inv in E. subst m. now rewrite lookup_empty in H.
Qed.

Lemma getitem_lookup m k v : m !! k = Some v -> getitem (Some m) k = Ok v.
Proof. intros H. unfold getitem. now rewrite H. Qed.

End Facts.

Lemma well_formed_record_lookup (u : gmap string string) :
  well_formed_record u = true ->
  exists h s, u !! "home" = Some h /\ u !! "shell" = Some s.
Proof.
  unfold well_formed_record. intros H.
  apply andb_prop in H as [Hh Hs].
  apply bool_decide_eq_true in Hh as [h Hh].
  apply bool_decide_eq_true in Hs as [s Hs]. eauto.
Qed.

Lemma user_record_well_formed (home shell : string) :
  well_formed_record (user_record home shell) = true.
Proof. reflexivity. Qed.

Lemma ne_same (s : string) : ne s (VStr s) = false.
Proof. unfold ne. now rewrite String.eqb_refl. Qed.

Lemma ne_other (s s' : string) : s <> s' -> ne s (VStr s') = true.
Proof.
  intros H. unfold ne.
  destruct (String.eqb_spec s s'); [contradiction | reflexivity].
Qed.

Lemma ne_none (s : string) : ne s VNone = true.
Proof. reflexivity. Qed.

Lemma list_of_id {A} (t : list A) : list_of t = t.
Proof. induction t as [|x t IH]; simpl; [reflexivity | now rewrite IH]. Qed.

#[local] Arguments format : simpl never.
#[local] Arguments or_empty : simpl never.
#[local] Arguments truthy : simpl never.
#[local] Arguments getitem : simpl never.
#[local] Arguments ne : simpl never.
#[local] Arguments builtin_file : simpl never.

(** ** The plans of [wait], [shell] and [script] *)

Section RawPlans.

(** (C7) [shell] returns its commands, the same ones in the same order.
    It has no host among its arguments: it consults no fact. *)
Theorem shell_identity (commands : list string) :
  shell commands = Ok commands.
Proof. unfold shell. now rewrite list_of_id. Qed.

(** (C9) For every port, [wait] returns, and its plan is one command: the
    text below. It probes with [nc] when [which nc] finds it, else through
    [/dev/tcp] when [timeout] and [bash] are found; both probes sit in the
    same loop, which sleeps 5 after a probe that fails and ends at the
    first that succeeds; with neither tool the text prints a message and
    runs [exit 1]. Nothing of the host is read to compute it, so a missing
    tool shows when the command runs, not when the plan is computed. *)
Theorem wait_single_command (port : value) :
  let poll := fun probe : string =>
    "while ! " +:+ probe +:+ "; do sleep 5; done" in
  let nc_probe := "nc -q 1 localhost " +:+ str port +:+ " < /dev/null" in
  let bash_probe :=
    "timeout 1 bash -c " +:+ dq +:+ "echo > /dev/tcp/localhost/"
      +:+ str port +:+ dq in
  exists command,
    wait port = Ok [command]
    /\ command =
       String.concat nl
         [ EmptyString;
           "        if [ $(which nc) ]; then";
           "            " +:+ poll nc_probe;
           "        elif [ $(which timeout) ] && [ $(which bash) ]; then";
           "            " +:+ poll bash_probe;
           "        else";
           "            echo " +:+ dq +:+ "No nc or timeout/bash!" +:+ dq;
           "            exit 1";
           "        fi";
           "    " ].
Proof.
  intros poll nc_probe bash_probe. eexists. split; [|reflexivity].
  unfold wait. rewrite format_wait. cbn [mbind result_bind].
  do 2 f_equal. subst poll nc_probe bash_probe.
  cbv -[append str]. rewrite ?append_assoc. reflexivity.
Qed.

Variable files_put : string -> string -> result (list string).

(** [script] is the upload followed by two commands on the temp path. *)
Lemma script_unfold (filename : string) :
  let temp_file := "/tmp/" +:+ SHA1.hexdigest filename in
  script files_put filename
  = (put ← files_put filename temp_file;
     Ok (put ++ ["chmod +x " +:+ temp_file; temp_file])).
Proof.
  intros temp_file. unfold script. rewrite format_tmp.
  cbn [mbind result_bind]. fold temp_file.
  destruct (files_put filename temp_file) as [put|e]; [|reflexivity].
  cbn [mbind result_bind]. rewrite format_chmod. cbn [mbind result_bind].
  now rewrite <- app_assoc.
Qed.

(** (C8) Script plan shape and path stability: when the upload to the temp
    path returns its commands, the plan of [script] is those commands,
    then [chmod +x] of the temp path, then the temp path itself as a
    command; the temp path is fixed by the name of the script, so any
    other run on the same name, whatever its upload does, has the same
    shape on the same path. *)
Theorem script_plan_shape (filename : string) (put : list string) :
  let temp_file := "/tmp/" +:+ SHA1.hexdigest filename in
  files_put filename temp_file = Ok put ->
  script files_put filename
  = Ok (put ++ ["chmod +x " +:+ temp_file; temp_file])
  /\ (forall files_put' plan',
        script files_put' filename = Ok plan' ->
        exists put',
          files_put' filename temp_file = Ok put'
          /\ plan' = put' ++ ["chmod +x " +:+ temp_file; temp_file]).
Proof.
  intros temp_file Hput. split.
  - pose proof (script_unfold filename) as E. cbv zeta in E.
    fold temp_file in E. now rewrite E, Hput.
  - intros files_put' plan'. unfold script. rewrite format_tmp.
    cbn [mbind result_bind]. fold temp_file.
    destruct (files_put' filename temp_file) as [put'|e]; [|discriminate].
    cbn [mbind result_bind]. rewrite format_chmod. cbn [mbind result_bind].
    intros [= <-]. exists put'. split; [reflexivity|].
    now rewrite <- app_assoc.
Qed.

End RawPlans.

(** (C10) The temp path of [script] is [/tmp/] followed by the SHA-1 hex
    digest of the file name, 40 digits, and of nothing else: with an
    upload that sees the contents of the local file, two different
    contents under one name are uploaded to, made executable at and
    invoked at the same path. *)
Theorem script_temp_path_of_filename
    (upload : string -> string -> string -> result (list string))
    (contents1 contents2 filename : string) :
  let temp_file := "/tmp/" +:+ SHA1.hexdigest filename in
  String.length (SHA1.hexdigest filename) = 40%nat
  /\ script (upload contents1) filename
     = (put ← upload contents1 filename temp_file;
        Ok (put ++ ["chmod +x " +:+ temp_file; temp_file]))
  /\ script (upload contents2) filename
     = (put ← upload contents2 filename temp_file;
        Ok (put ++ ["chmod +x " +:+ temp_file; temp_file])).
Proof.
  intros temp_file. split; [apply hexdigest_length|].
  split; apply script_unfold.
Qed.

(** ** The plans of [user] *)

Section UserPlans.

Variable files_directory :
  value -> string -> string -> option string -> result (list string).

Implicit Types (users : gmap string (gmap string string)).
Implicit Types (u : gmap string string) (name h s : string).
Implicit Types (keys : list string) (public_keys : option (list string)).

(** The first statement of [user] that can raise reads the fact: when the
    provider raises, so does [user], whatever the descriptor. *)
Lemma user_fact_unavailable e name present (home shell : option string)
    public_keys :
  user (Raise e) files_directory name present home shell public_keys
  = Raise e.
Proof. reflexivity. Qed.

(** The call of the builtin [file] with [user=] and [group=] raises. *)
Lemma builtin_file_rejects filename name :
  builtin_file filename [("user", name); ("group", name); ("mode", "600")]
  = Raise TypeError.
Proof. reflexivity. Qed.

(** With [public_keys] given and [present] true, [user] never returns:
    every path reaches the call of [file] or raises before it. *)
Lemma user_public_keys_never_returns host_users name
    (home shell : option string) keys :
  returns (user host_users files_directory name true home shell (Some keys))
  = false.
Proof.
  unfold user. destruct host_users as [fact|e]; [|reflexivity].
  cbn [mbind result_bind negb andb].
  match goal with
  | |- context [if ?b then ?x else ?y] =>
      destruct (if b then x else y) as [commands|]; [|reflexivity]
  end.
  cbn [mbind result_bind].
  destruct (files_directory (of_opt home) name name None); [|reflexivity].
  cbn [mbind result_bind].
  rewrite format_ssh_dir. cbn [mbind result_bind].
  destruct (files_directory _ name name (Some "700")); [|reflexivity].
  cbn [mbind result_bind].
  rewrite format_authorized_keys. cbn [mbind result_bind].
  rewrite builtin_file_rejects. reflexivity.
Qed.

(** Without a record for the name and with [present] false, [user] reads
    a field of [None]. *)
Lemma user_absent_unwanted_raises users name (home shell : option string)
    public_keys :
  users !! name = None ->
  user (Ok (Some users)) files_directory name false home shell public_keys
  = Raise TypeError.
Proof.
  intros H. unfold user. cbn [mbind result_bind].
  rewrite or_empty_some, H. reflexivity.
Qed.

(** With [present] true, a record for the name and no public keys, the
    plan is at most one command per field, home first, and then the
    directory sub-plan. *)
Lemma user_existing_plan users name u h s (home shell : option string) :
  users !! name = Some u ->
  u !! "home" = Some h ->
  u !! "shell" = Some s ->
  user (Ok (Some users)) files_directory name true home shell None
  = (d ← files_directory (of_opt home) name name None;
     Ok ((if ne h (of_opt home)
          then ["usermod -d " +:+ str (of_opt home) +:+ " " +:+ name]
          else [])
         ++ (if ne s (of_opt shell)
             then ["usermod -s " +:+ str (of_opt shell) +:+ " " +:+ name]
             else [])
         ++ d)).
Proof.
  intros Hu Hh Hs. unfold user. cbn [mbind result_bind].
  rewrite or_empty_some, Hu. cbn [negb andb].
  rewrite bool_decide_eq_false_2 by discriminate.
  rewrite (getitem_lookup u "home" h Hh), (getitem_lookup u "shell" s Hs).
  cbn [mbind result_bind].
  rewrite format_usermod_d, format_usermod_s.
  destruct (ne h (of_opt home)), (ne s (of_opt shell));
    cbn [mbind result_bind app];
    destruct (files_directory (of_opt home) name name None);
    reflexivity.
Qed.

(** (C4) Removal precedence: with [present] false and a record for the
    name in the users fact, the plan is the one command [userdel name],
    whatever home, shell and public keys the descriptor sets and whatever
    the directories of the host are. *)
Theorem user_removal_precedence users name u (home shell : option string)
    public_keys :
  users !! name = Some u ->
  well_formed_record u = true ->
  user (Ok (Some users)) files_directory name false home shell public_keys
  = Ok ["userdel " +:+ name].
Proof.
  intros Hu Hwf. unfold user. cbn [mbind result_bind].
  rewrite or_empty_some, Hu.
  destruct (well_formed_record_lookup u Hwf) as (h & s & Hh & _).
  rewrite (truthy_lookup u "home" h Hh). cbn [negb andb].
  rewrite format_userdel. reflexivity.
Qed.

(** (C6) Field ordering: with [present] true, a record for the name, and
    home and shell both set and both different from the record's, every
    plan [user] returns starts with the home change followed by the shell
    change; and it does return one, the two commands followed by the
    directory sub-plan, when no public keys are given and the directory
    sub-operation returns. *)
Theorem user_home_before_shell users name u h s (home shell : string) :
  users !! name = Some u ->
  u !! "home" = Some h ->
  u !! "shell" = Some s ->
  h <> home ->
  s <> shell ->
  let home_change := "usermod -d " +:+ home +:+ " " +:+ name in
  let shell_change := "usermod -s " +:+ shell +:+ " " +:+ name in
  (forall public_keys plan,
      user (Ok (Some users)) files_directory name true
           (Some home) (Some shell) public_keys = Ok plan ->
      exists rest, plan = home_change :: shell_change :: rest)
  /\ (forall d,
      files_directory (VStr home) name name None = Ok d ->
      user (Ok (Some users)) files_directory name true
           (Some home) (Some shell) None
      = Ok (home_change :: shell_change :: d)).
Proof.
  intros Hu Hh Hs Dh Ds home_change shell_change.
  assert (Hnone :
    user (Ok (Some users)) files_directory name true
         (Some home) (Some shell) None
    = (d ← files_directory (VStr home) name name None;
       Ok (home_change :: shell_change :: d))).
  { rewrite (user_existing_plan users name u h s) by assumption.
    cbn [of_opt]. now rewrite (ne_other h home Dh), (ne_other s shell Ds). }
  split.
  - intros [keys|] plan.
    + intros E.
      pose proof (user_public_keys_never_returns (Ok (Some users)) name
                    (Some home) (Some shell) keys) as R.
      rewrite E in R. discriminate R.
    + rewrite Hnone.
      destruct (files_directory (VStr home) name name None) as [d|e];
        [|discriminate].
      intros [= <-]. now exists d.
  - intros d Hd. now rewrite Hnone, Hd.
Qed.

(** (X1) A user that is wanted and missing is created: with [present]
    true, no record for the name and no public keys, the plan is one
    [useradd] with the desired home and shell, then the directory
    sub-plan. *)
Theorem user_creates_missing_user users name (home shell : string)
    (d : list string) :
  users !! name = None ->
  files_directory (VStr home) name name None = Ok d ->
  user (Ok (Some users)) files_directory name true (Some home) (Some shell)
       None
  = Ok (("useradd -d " +:+ home +:+ " -s " +:+ shell +:+ " " +:+ name) :: d).
Proof.
  intros Hu Hd. unfold user. cbn [mbind result_bind].
  rewrite or_empty_some, Hu. cbn [negb andb].
  rewrite bool_decide_eq_true_2 by reflexivity.
  rewrite format_useradd. cbn [mbind result_bind of_opt str app].
  now rewrite Hd.
Qed.

(** (X2) A field whose desired value is the observed one gets no command:
    with both fields as observed and no public keys, the plan is the
    directory sub-plan and nothing else. *)
Theorem user_matching_fields_untouched users name u h s :
  users !! name = Some u ->
  u !! "home" = Some h ->
  u !! "shell" = Some s ->
  user (Ok (Some users)) files_directory name true (Some h) (Some s) None
  = files_directory (VStr h) name name None.
Proof.
  intros Hu Hh Hs. rewrite (user_existing_plan users name u h s) by assumption.
  cbn [of_opt]. rewrite !ne_same. cbn [app].
  destruct (files_directory (VStr h) name name None); reflexivity.
Qed.

(** (X3) Only the field that differs is changed: with the home as
    observed and another shell, the plan is the shell change, then the
    directory sub-plan. *)
Theorem user_shell_change_only users name u h s (shell : string)
    (d : list string) :
  users !! name = Some u ->
  u !! "home" = Some h ->
  u !! "shell" = Some s ->
  s <> shell ->
  files_directory (VStr h) name name None = Ok d ->
  user (Ok (Some users)) files_directory name true (Some h) (Some shell) None
  = Ok (("usermod -s " +:+ shell +:+ " " +:+ name) :: d).
Proof.
  intros Hu Hh Hs Ds Hd.
  rewrite (user_existing_plan users name u h s) by assumption.
  cbn [of_opt]. rewrite ne_same, (ne_other s shell Ds), Hd. reflexivity.
Qed.

(** (X4) Idempotence where a user is created or modified: once the users
    fact holds the record the descriptor asks for and the home directory
    is as asked, a run with [present] true, home and shell set and no
    public keys plans nothing. *)
Theorem user_converged_is_empty users name (home shell : string) :
  files_directory (VStr home) name name None = Ok [] ->
  user (Ok (Some (<[name := user_record home shell]> users)))
       files_directory name true (Some home) (Some shell) None
  = Ok [].
Proof.
  intros Hd.
  rewrite (user_existing_plan _ name (user_record home shell) home shell).
  - cbn [of_opt]. rewrite !ne_same, Hd. reflexivity.
  - apply lookup_insert_eq.
  - reflexivity.
  - reflexivity.
Qed.

End UserPlans.

(** (X5) The loop over the public keys appends one command per key, in
    the order of the keys: the command that greps the file for the key and
    appends the key when grep finds nothing. *)
Theorem append_keys_one_per_key (filename : string) (keys commands : list string) :
  append_keys filename keys commands
  = Ok (commands ++
        map (fun key =>
               "cat " +:+ filename +:+ " | grep " +:+ dq +:+ key +:+ dq
               +:+ " || echo " +:+ dq +:+ key +:+ dq +:+ " >> " +:+ filename)
            keys).
Proof.
  revert commands. induction keys as [|key keys IH]; intros commands.
  - simpl. now rewrite app_nil_r.
  - cbn [append_keys]. rewrite format_key. cbn [mbind result_bind].
    rewrite IH, <- app_assoc. reflexivity.
Qed.

(** ** Runs on the sample hosts *)

Section Runs.

Import Sample.

Variable files_directory :
  value -> string -> string -> option string -> result (list string).

(** (C1) Idempotence fails on removal. The descriptor is bob with
    [present] false, on a host that knows bob: the plan is [userdel bob].
    On the users fact with bob removed, which is what that plan leaves,
    the same descriptor does not give the empty plan: [user] raises
    [TypeError], reading the home of a record that is [None]. *)
Theorem user_rerun_after_removal_raises :
  user (Ok (Some users_bob)) files_directory "bob" false None None None
  = Ok ["userdel bob"]
  /\ user (Ok (Some (delete "bob" users_bob))) files_directory
          "bob" false None None None
     = Raise TypeError.
Proof.
  split.
  - vm_compute. reflexivity.
  - apply user_absent_unwanted_raises. apply lookup_delete_eq.
Qed.

(** (C2) Minimality fails on unset fields. The descriptor is alice with
    [present] true and neither home nor shell set, on a host that knows
    alice: the plan starts with a home change and a shell change, both to
    the text [None], before the directory sub-plan. *)
Theorem user_unset_fields_are_modified :
  user (Ok (Some users_alice)) files_directory "alice" true None None None
  = (d ← files_directory VNone "alice" "alice" None;
     Ok ("usermod -d None alice" :: "usermod -s None alice" :: d)).
Proof.
  rewrite (user_existing_plan files_directory users_alice "alice"
             (user_record "/home/alice" "/bin/sh") "/home/alice" "/bin/sh")
    by reflexivity.
  reflexivity.
Qed.

(** (C3) Plan computation is not total. With [present] false and no
    record for the name, [user] raises [TypeError]; and with [present]
    true and public keys given it returns for no list of keys, the empty
    one included. *)
Theorem user_plan_not_total :
  user (Ok (Some users_alice)) files_directory "bob" false None None None
  = Raise TypeError
  /\ (forall keys : list string,
        returns (user (Ok (Some users_alice)) files_directory "alice" true
                   (Some "/home/alice") (Some "/bin/sh") (Some keys))
        = false).
Proof.
  split.
  - now apply user_absent_unwanted_raises.
  - intros keys. apply user_public_keys_never_returns.
Qed.

End Runs.

(** (C5) The public-keys plan is not returned. The descriptor is alice
    with [present] true, the home and shell the host already has, and one
    public key, on a host whose directories all are as asked: [user]
    raises [TypeError] at the call of [file] and no plan comes back. *)
Theorem user_public_keys_plan_raises :
  user (Ok (Some Sample.users_alice)) Sample.converged "alice" true
       (Some "/home/alice") (Some "/bin/sh") (Some ["ssh-rsa AAA..."])
  = Raise TypeError.
Proof. vm_compute. reflexivity. Qed.

(** ** Witnesses *)

Lemma user_removal_precedence_witness :
  Sample.users_bob !! "bob" = Some (user_record "/home/bob" "/bin/sh")
  /\ well_formed_record (user_record "/home/bob" "/bin/sh") = true
  /\ user (Ok (Some Sample.users_bob)) Sample.chown_needed "bob" false
          (Some "/srv/bob") (Some "/bin/zsh") (Some ["ssh-rsa AAA..."])
     = Ok ["userdel bob"].
Proof.
  split; [reflexivity|]. split; [reflexivity|].
  apply (user_removal_precedence Sample.chown_needed Sample.users_bob "bob"
           (user_record "/home/bob" "/bin/sh")); reflexivity.
Defined.

Lemma user_home_before_shell_witness :
  Sample.users_alice !! "alice" = Some (user_record "/home/alice" "/bin/sh")
  /\ "/home/alice" <> "/srv/alice"
  /\ "/bin/sh" <> "/bin/bash"
  /\ user (Ok (Some Sample.users_alice)) Sample.chown_needed "alice" true
          (Some "/srv/alice") (Some "/bin/bash") None
     = Ok ["usermod -d /srv/alice alice"; "usermod -s /bin/bash alice";
           "chown alice:alice /srv/alice"].
Proof.
  split; [reflexivity|]. split; [discriminate|]. split; [discriminate|].
  apply (user_home_before_shell Sample.chown_needed Sample.users_alice
           "alice" (user_record "/home/alice" "/bin/sh")
           "/home/alice" "/bin/sh" "/srv/alice" "/bin/bash");
    first [reflexivity | discriminate].
Defined.

Lemma script_plan_shape_witness :
  Sample.put_one "deploy.sh" "/tmp/be94fd40f0c4b440044c3f852e44fd2a75f7b3cc"
  = Ok ["put deploy.sh /tmp/be94fd40f0c4b440044c3f852e44fd2a75f7b3cc"]
  /\ script Sample.put_one "deploy.sh"
     = Ok ["put deploy.sh /tmp/be94fd40f0c4b440044c3f852e44fd2a75f7b3cc";
           "chmod +x /tmp/be94fd40f0c4b440044c3f852e44fd2a75f7b3cc";
           "/tmp/be94fd40f0c4b440044c3f852e44fd2a75f7b3cc"].
Proof.
  split; [reflexivity|].
  apply (script_plan_shape Sample.put_one "deploy.sh"
           ["put deploy.sh /tmp/be94fd40f0c4b440044c3f852e44fd2a75f7b3cc"]).
  vm_compute. reflexivity.
Defined.

Lemma user_creates_missing_user_witness :
  Sample.users_bob !! "alice" = None
  /\ user (Ok (Some Sample.users_bob)) Sample.chown_needed "alice" true
          (Some "/home/alice") (Some "/bin/bash") None
     = Ok ["useradd -d /home/alice -s /bin/bash alice";
           "chown alice:alice /home/alice"].
Proof.
  split; [reflexivity|].
  apply (user_creates_missing_user Sample.chown_needed Sample.users_bob
           "alice" "/home/alice" "/bin/bash"); reflexivity.
Defined.

Lemma user_matching_fields_untouched_witness :
  user (Ok (Some Sample.users_alice)) Sample.chown_needed "alice" true
       (Some "/home/alice") (Some "/bin/sh") None
  = Ok ["chown alice:alice /home/alice"].
Proof.
  apply (user_matching_fields_untouched Sample.chown_needed
           Sample.users_alice "alice"
           (user_record "/home/alice" "/bin/sh") "/home/alice" "/bin/sh");
    reflexivity.
Defined.

Lemma user_shell_change_only_witness :
  user (Ok (Some Sample.users_alice)) Sample.chown_needed "alice" true
       (Some "/home/alice") (Some "/bin/bash") None
  = Ok ["usermod -s /bin/bash alice"; "chown alice:alice /home/alice"].
Proof.
  apply (user_shell_change_only Sample.chown_needed Sample.users_alice
           "alice" (user_record "/home/alice" "/bin/sh")
           "/home/alice" "/bin/sh" "/bin/bash");
    first [reflexivity | discriminate].
Defined.

Lemma user_converged_is_empty_witness :
  user (Ok (Some (<["alice" := user_record "/home/alice" "/bin/bash"]>
                    Sample.users_bob)))
       Sample.converged "alice" true (Some "/home/alice") (Some "/bin/bash")
       None
  = Ok [].
Proof.
  apply (user_converged_is_empty Sample.converged Sample.users_bob "alice"
           "/home/alice" "/bin/bash"); reflexivity.
Defined.

(** ** More on the plans of [user]: what is read, what is propagated *)

Section UserEdges.

Variable files_directory :
  value -> string -> string -> option string -> result (list string).

Implicit Types (users : gmap string (gmap string string)).
Implicit Types (u : gmap string string) (name h s : string).
Implicit Types (public_keys : option (list string)).

(** (X6) The plan for a name reads the record of that name and nothing
    else of the users fact: two facts that agree on the name give the
    same result, whatever the descriptor. *)
Theorem user_reads_own_record_only users1 users2 name present
    (home shell : option string) public_keys :
  users1 !! name = users2 !! name ->
  user (Ok (Some users1)) files_directory name present home shell public_keys
  = user (Ok (Some users2)) files_directory name present home shell
         public_keys.
Proof.
  intros H. unfold user. cbn [mbind result_bind].
  rewrite !or_empty_some, H. reflexivity.
Qed.

(** (X7) A users fact that is [None] or the empty dict knows nobody:
    with [present] true and no public keys the plan is a [useradd], then
    the directory sub-plan, for every name. *)
Theorem user_without_fact_creates name (home shell : string) :
  let plan :=
    d ← files_directory (VStr home) name name None;
    Ok (("useradd -d " +:+ home +:+ " -s " +:+ shell +:+ " " +:+ name) :: d) in
  user (Ok None) files_directory name true (Some home) (Some shell) None
  = plan
  /\ user (Ok (Some ∅)) files_directory name true (Some home) (Some shell)
          None
     = plan.
Proof.
  intros plan. subst plan.
  assert (E : forall fact : option (gmap string (gmap string string)),
             or_empty fact !! name = None ->
             user (Ok fact) files_directory name true (Some home)
                  (Some shell) None
             = (d ← files_directory (VStr home) name name None;
                Ok (("useradd -d " +:+ home +:+ " -s " +:+ shell +:+ " "
                       +:+ name) :: d))).
  { intros fact Hf. unfold user. cbn [mbind result_bind].
    rewrite Hf. cbn [negb andb].
    rewrite bool_decide_eq_true_2 by reflexivity.
    rewrite format_useradd. cbn [mbind result_bind of_opt str app].
    destruct (files_directory (VStr home) name name None); reflexivity. }
  split; apply E.
  - rewrite or_empty_none. apply lookup_empty.
  - rewrite or_empty_some. apply lookup_empty.
Qed.

(** (X8) Creation with home and shell left unset: the [useradd] is still
    planned, with the text [None] in both places, and the directory
    sub-operation is asked about [None]. *)
Theorem user_creates_with_unset_fields users name :
  users !! name = None ->
  user (Ok (Some users)) files_directory name true None None None
  = (d ← files_directory VNone name name None;
     Ok (("useradd -d None -s None " +:+ name) :: d)).
Proof.
  intros Hu. unfold user. cbn [mbind result_bind].
  rewrite or_empty_some, Hu. cbn [negb andb].
  rewrite bool_decide_eq_true_2 by reflexivity.
  rewrite format_useradd. cbn [mbind result_bind of_opt str app].
  destruct (files_directory VNone name name None); reflexivity.
Qed.

(** (X9) No partial plan: when the directory sub-operation raises on the
    home directory, [user] with [present] true raises the same exception,
    for a missing user as for a known one; the [useradd] or [usermod]
    commands computed before are not returned. *)
Theorem user_directory_failure_propagates users name
    (home shell : option string) public_keys e :
  users !! name = None
  \/ (exists u, users !! name = Some u /\ well_formed_record u = true) ->
  files_directory (of_opt home) name name None = Raise e ->
  user (Ok (Some users)) files_directory name true home shell public_keys
  = Raise e.
Proof.
  intros Hu Hd. unfold user. cbn [mbind result_bind].
  rewrite or_empty_some. cbn [negb andb].
  destruct Hu as [Hu | (u & Hu & Hwf)]; rewrite Hu.
  - rewrite bool_decide_eq_true_2 by reflexivity.
    rewrite format_useradd. cbn [mbind result_bind].
    now rewrite Hd.
  - rewrite bool_decide_eq_false_2 by discriminate.
    destruct (well_formed_record_lookup u Hwf) as (h & s & Hh & Hs).
    rewrite (getitem_lookup u "home" h Hh), (getitem_lookup u "shell" s Hs).
    cbn [mbind result_bind].
    rewrite format_usermod_d, format_usermod_s.
    destruct (ne h (of_opt home)), (ne s (of_opt shell));
      cbn [mbind result_bind]; now rewrite Hd.
Qed.

(** (X10) A record that lacks the key [home] or the key [shell] makes
    [user] with [present] true raise [KeyError]; when it is the shell
    that is missing, a home change computed before it is not returned. *)
Theorem user_missing_key_raises users name u (home shell : option string)
    public_keys :
  users !! name = Some u ->
  u !! "home" = None \/ u !! "shell" = None ->
  user (Ok (Some users)) files_directory name true home shell public_keys
  = Raise KeyError.
Proof.
  intros Hu Hk. unfold user. cbn [mbind result_bind].
  rewrite or_empty_some, Hu. cbn [negb andb].
  rewrite bool_decide_eq_false_2 by discriminate.
  destruct (u !! "home") as [h|] eqn:Hh.
  - destruct Hk as [Hk|Hk]; [discriminate|].
    rewrite (getitem_lookup u "home" h Hh). cbn [mbind result_bind].
    assert (G : getitem (Some u) "shell" = Raise KeyError)
      by (unfold getitem; now rewrite Hk).
    rewrite G, format_usermod_d.
    destruct (ne h (of_opt home)); reflexivity.
  - assert (G : getitem (Some u) "home" = Raise KeyError)
      by (unfold getitem; now rewrite Hh).
    now rewrite G.
Qed.

(** (X11) Only the field that differs is changed, the other way round:
    with the shell as observed and another home, the plan is the home
    change, then the sub-plan of the new home directory. *)
Theorem user_home_change_only users name u h s (home : string)
    (d : list string) :
  users !! name = Some u ->
  u !! "home" = Some h ->
  u !! "shell" = Some s ->
  h <> home ->
  files_directory (VStr home) name name None = Ok d ->
  user (Ok (Some users)) files_directory name true (Some home) (Some s) None
  = Ok (("usermod -d " +:+ home +:+ " " +:+ name) :: d).
Proof.
  intros Hu Hh Hs Dh Hd.
  rewrite (user_existing_plan files_directory users name u h s)
    by assumption.
  cbn [of_opt]. rewrite ne_same, (ne_other h home Dh), Hd. reflexivity.
Qed.

(** (X14) How [user] composes with the directory sub-operation: with
    [present] true and no public keys, whenever the sub-operation returns,
    its commands are the end of the plan, after at most two commands of
    [user] itself. *)
Theorem user_plan_ends_with_directory users name
    (home shell : option string) (d : list string) :
  users !! name = None
  \/ (exists u, users !! name = Some u /\ well_formed_record u = true) ->
  files_directory (of_opt home) name name None = Ok d ->
  exists own,
    user (Ok (Some users)) files_directory name true home shell None
    = Ok (own ++ d)
    /\ length own <= 2.
Proof.
  intros [Hu | (u & Hu & Hwf)] Hd.
  - eexists [_]. split; [|simpl; lia].
    unfold user. cbn [mbind result_bind].
    rewrite or_empty_some, Hu. cbn [negb andb].
    rewrite bool_decide_eq_true_2 by reflexivity.
    rewrite format_useradd. cbn [mbind result_bind app].
    rewrite Hd. reflexivity.
  - destruct (well_formed_record_lookup u Hwf) as (h & s & Hh & Hs).
    rewrite (user_existing_plan files_directory users name u h s)
      by assumption.
    rewrite Hd. cbn [mbind result_bind].
    eexists. split; [rewrite app_assoc; reflexivity|].
    destruct (ne h (of_opt home)), (ne s (of_opt shell)); simpl; lia.
Qed.

End UserEdges.

(** ** More on the plans of [script]: failure of the upload, and what the
    temp path is made of *)

Lemma hex_digit_is_hex (x : Z) :
  (0 <= x < 16)%Z -> SHA1.is_hex_digit (SHA1.hex_digit x) = true.
Proof.
  intros Hx.
  assert (H : (x = 0 \/ x = 1 \/ x = 2 \/ x = 3 \/ x = 4 \/ x = 5 \/ x = 6
               \/ x = 7 \/ x = 8 \/ x = 9 \/ x = 10 \/ x = 11 \/ x = 12
               \/ x = 13 \/ x = 14 \/ x = 15)%Z) by lia.
  repeat (destruct H as [-> | H]; [reflexivity|]). subst x. reflexivity.
Qed.

Lemma hex_byte_is_hex (b : Z) :
  (0 <= b < 256)%Z ->
  Forall (fun c => SHA1.is_hex_digit c = true)
         (list_ascii_of_string (SHA1.hex_byte b)).
Proof.
  intros Hb. unfold SHA1.hex_byte. cbn [list_ascii_of_string].
  repeat constructor; apply hex_digit_is_hex.
  - split; [apply Z.div_pos; lia | apply Z.div_lt_upper_bound; lia].
  - apply Z.mod_pos_bound. lia.
Qed.

Lemma list_ascii_of_append (a b : string) :
  list_ascii_of_string (a +:+ b)
  = list_ascii_of_string a ++ list_ascii_of_string b.
Proof.
  induction a as [|c a IH]; [reflexivity | exact (f_equal (cons c) IH)].
Qed.

Lemma hex_word_is_hex (w : Z) :
  Forall (fun c => SHA1.is_hex_digit c = true)
         (list_ascii_of_string (SHA1.hex_word w)).
Proof.
  unfold SHA1.hex_word. cbn [SHA1.be_bytes map String.concat].
  rewrite !list_ascii_of_append, !Forall_app.
  repeat split;
    first [ now constructor
          | apply hex_byte_is_hex; apply Z.mod_pos_bound; lia ].
Qed.

Lemma hexdigest_is_hex (msg : string) :
  Forall (fun c => SHA1.is_hex_digit c = true)
         (list_ascii_of_string (SHA1.hexdigest msg)).
Proof.
  unfold SHA1.hexdigest. generalize (SHA1.digest msg). intros s.
  cbn [map String.concat].
  rewrite !list_ascii_of_append, !Forall_app.
  repeat split; first [now constructor | apply hex_word_is_hex].
Qed.

Section ScriptEdges.

Variable files_put : string -> string -> result (list string).

(** (X12) No partial plan: when the upload raises, [script] raises the
    same exception, and neither the [chmod] nor the invocation is
    returned. *)
Theorem script_upload_failure_propagates (filename : string) e :
  files_put filename ("/tmp/" +:+ SHA1.hexdigest filename) = Raise e ->
  script files_put filename = Raise e.
Proof.
  intros H. pose proof (script_unfold files_put filename) as E.
  cbv zeta in E. now rewrite E, H.
Qed.

(** (X13) The two commands [script] adds to the upload are fixed text
    around 40 lower-case hexadecimal digits, whatever bytes the file name
    is made of: spaces, quotes or shell syntax in the name reach the plan
    through the upload only. *)
Theorem script_own_commands_are_hex (filename : string) (plan : list string) :
  script files_put filename = Ok plan ->
  exists put digest,
    files_put filename ("/tmp/" +:+ digest) = Ok put
    /\ plan = put ++ ["chmod +x /tmp/" +:+ digest; "/tmp/" +:+ digest]
    /\ String.length digest = 40%nat
    /\ Forall (fun c => SHA1.is_hex_digit c = true)
              (list_ascii_of_string digest).
Proof.
  intros H. pose proof (script_unfold files_put filename) as E.
  cbv zeta in E. rewrite E in H.
  destruct (files_put filename ("/tmp/" +:+ SHA1.hexdigest filename))
    as [put|e] eqn:Hput; [|discriminate].
  cbn [mbind result_bind] in H. injection H as <-.
  exists put, (SHA1.hexdigest filename).
  split; [exact Hput|]. split; [reflexivity|].
  split; [apply hexdigest_length | apply hexdigest_is_hex].
Qed.

End ScriptEdges.

(** ** Witnesses of the further properties *)

Lemma user_reads_own_record_only_witness :
  Sample.users_alice !! "alice"
  = (<["bob" := user_record "/home/bob" "/bin/sh"]> Sample.users_alice)
      !! "alice"
  /\ user (Ok (Some Sample.users_alice)) Sample.chown_needed "alice" true
          (Some "/srv/alice") (Some "/bin/sh") None
     = user (Ok (Some (<["bob" := user_record "/home/bob" "/bin/sh"]>
                         Sample.users_alice)))
            Sample.chown_needed "alice" true
            (Some "/srv/alice") (Some "/bin/sh") None.
Proof.
  split; [reflexivity|].
  apply (user_reads_own_record_only Sample.chown_needed). reflexivity.
Defined.

Lemma user_creates_with_unset_fields_witness :
  Sample.users_bob !! "alice" = None
  /\ user (Ok (Some Sample.users_bob)) Sample.chown_needed "alice" true
          None None None
     = Ok ["useradd -d None -s None alice"; "chown alice:alice None"].
Proof.
  split; [reflexivity|].
  apply (user_creates_with_unset_fields Sample.chown_needed Sample.users_bob
           "alice"). reflexivity.
Defined.

Lemma user_directory_failure_propagates_witness :
  user (Ok (Some Sample.users_alice)) Sample.no_directories "alice" true
       (Some "/srv/alice") (Some "/bin/bash") None
  = Raise FactUnavailable
  /\ user (Ok (Some Sample.users_alice)) Sample.no_directories "bob" true
          (Some "/home/bob") (Some "/bin/sh") None
     = Raise FactUnavailable.
Proof.
  split.
  - apply (user_directory_failure_propagates Sample.no_directories
             Sample.users_alice "alice"); [|reflexivity].
    right. exists (user_record "/home/alice" "/bin/sh").
    split; reflexivity.
  - apply (user_directory_failure_propagates Sample.no_directories
             Sample.users_alice "bob"); [|reflexivity].
    left. reflexivity.
Defined.

Lemma user_missing_key_raises_witness :
  Sample.users_no_shell !! "alice" = Some {[ "home" := "/home/alice" ]}
  /\ user (Ok (Some Sample.users_no_shell)) Sample.converged "alice" true
          (Some "/srv/alice") (Some "/bin/sh") None
     = Raise KeyError.
Proof.
  split; [reflexivity|].
  apply (user_missing_key_raises Sample.converged Sample.users_no_shell
           "alice" {[ "home" := "/home/alice" ]}); [reflexivity|].
  right. reflexivity.
Defined.

Lemma user_home_change_only_witness :
  user (Ok (Some Sample.users_alice)) Sample.chown_needed "alice" true
       (Some "/srv/alice") (Some "/bin/sh") None
  = Ok ["usermod -d /srv/alice alice"; "chown alice:alice /srv/alice"].
Proof.
  apply (user_home_change_only Sample.chown_needed Sample.users_alice
           "alice" (user_record "/home/alice" "/bin/sh")
           "/home/alice" "/bin/sh" "/srv/alice");
    first [reflexivity | discriminate].
Defined.

Lemma script_upload_failure_propagates_witness :
  script Sample.put_unreadable "deploy.sh" = Raise IOError.
Proof.
  apply (script_upload_failure_propagates Sample.put_unreadable "deploy.sh").
  reflexivity.
Defined.

Lemma script_own_commands_are_hex_witness :
  script Sample.put_one "my script; rm -rf /"
  = Ok ["put my script; rm -rf / /tmp/343fb1462b85efe11c0249b8d7d036f0f7dc1c63";
        "chmod +x /tmp/343fb1462b85efe11c0249b8d7d036f0f7dc1c63";
        "/tmp/343fb1462b85efe11c0249b8d7d036f0f7dc1c63"]
  /\ exists put digest,
       Sample.put_one "my script; rm -rf /" ("/tmp/" +:+ digest) = Ok put
       /\ ["put my script; rm -rf / /tmp/343fb1462b85efe11c0249b8d7d036f0f7dc1c63";
           "chmod +x /tmp/343fb1462b85efe11c0249b8d7d036f0f7dc1c63";
           "/tmp/343fb1462b85efe11c0249b8d7d036f0f7dc1c63"]
          = put ++ ["chmod +x /tmp/" +:+ digest; "/tmp/" +:+ digest]
       /\ String.length digest = 40%nat
       /\ Forall (fun c => SHA1.is_hex_digit c = true)
                 (list_ascii_of_string digest).
Proof.
  split; [vm_compute; reflexivity|].
  apply (script_own_commands_are_hex Sample.put_one "my script; rm -rf /").
  vm_compute. reflexivity.
Defined.

Lemma user_plan_ends_with_directory_witness :
  exists own,
    user (Ok (Some Sample.users_alice)) Sample.chown_needed "alice" true
         (Some "/srv/alice") None None
    = Ok (own ++ ["chown alice:alice /srv/alice"])
    /\ length own <= 2.
Proof.
  apply (user_plan_ends_with_directory Sample.chown_needed
           Sample.users_alice "alice" (Some "/srv/alice") None);
    [|reflexivity].
  right. exists (user_record "/home/alice" "/bin/sh"). split; reflexivity.
Defined.
